(** * Diagnostic factories of the TypeScript-to-Lua transformation

    A shallow embedding of [src/transformation/utils/diagnostics.ts]: the
    generic factory builder [createDiagnosticFactory], its two severity
    specialisations and the catalog of named diagnostics, followed by the
    properties the design document states about them.

    The TypeScript compiler API ([ts.Node], [ts.SourceFile],
    [ts.SyntaxKind]) and the [LuaTarget] enumeration of the compiler options
    are external to that file; they enter as the interfaces [TypeScript] and
    [CompilerOptions] below, so every result holds for any implementation of
    them.  A second reading of the builder, [Running], keeps the effects of
    the three position calls: the state they run in and the exceptions they
    may throw. *)

From Stdlib Require Import ZArith Lia Bool List Ascii String DecimalString.
From Stdlib Require DecimalPos DecimalZ.
Import ListNotations.
Local Open Scope string_scope.

(** ** ECMAScript conversions the message templates rely on *)

Module JS.

(** [number] arguments of the catalog are argument counts.  They are
    modelled as integers; [Number_toString] is [Number::toString] on a safe
    integer, one below 2^53 in magnitude: its decimal digits, with a leading
    minus sign for a negative one.  From 2^53 up a double prints rounded
    digits, and an exponent from 10^21 up; [Number_toString] is no model of
    the program there. *)
Definition number : Set := Z.

Definition Number_toString (n : number) : string :=
  NilZero.string_of_int (Z.to_int n).

(** A parameter declared [name?: string] holds a string or [undefined]. *)
Definition optional (A : Type) : Type := option A.
Definition undefined {A : Type} : optional A := None.

(** [ToBoolean] on [string | undefined]: only [undefined] and the empty
    string are falsy. *)
Definition ToBoolean (v : optional string) : bool :=
  match v with
  | None => false
  | Some s => negb (s =? "")
  end.

(** [ToString] on [string | undefined], as a template literal applies it. *)
Definition ToString (v : optional string) : string :=
  match v with
  | None => "undefined"
  | Some s => s
  end.

(** [String.prototype.toLowerCase], on the ASCII range: the letters [A-Z]
    move to [a-z], every other character stays. *)
Definition isUpper (c : ascii) : bool :=
  ((65 <=? N_of_ascii c) && (N_of_ascii c <=? 90))%N.

Definition toLowerCase_char (c : ascii) : ascii :=
  if isUpper c then ascii_of_N (N_of_ascii c + 32) else c.

Fixpoint toLowerCase (s : string) : string :=
  match s with
  | EmptyString => EmptyString
  | String c rest => String (toLowerCase_char c) (toLowerCase rest)
  end.

(** [String.prototype.includes]. *)
Fixpoint includes (hay needle : string) : bool :=
  prefix needle hay
  || match hay with
     | EmptyString => false
     | String _ rest => includes rest needle
     end.

End JS.

Import JS.

(** ** External interfaces *)

(** [ts.DiagnosticCategory] of the TypeScript compiler API. *)
Inductive DiagnosticCategory : Set :=
| Warning
| Error
| Suggestion
| Message.

(** What the file uses of the [typescript] module: nodes with their three
    position queries, the reverse mapping [ts.SyntaxKind[kind]] from a syntax
    kind to its name, and [any], the type of the unconstrained extra
    arguments a factory with a constant message accepts. *)
Class TypeScript : Type := {
  Node : Type;
  SourceFile : Type;
  getSourceFile : Node -> SourceFile;
  getStart : Node -> Z;
  getWidth : Node -> Z;
  SyntaxKind : Type;
  SyntaxKind_name : SyntaxKind -> string;
  any : Type
}.

(** [LuaTarget] of [CompilerOptions]: an enumeration compared with [===] and
    printed through a template literal ([LuaTarget_toString] is the member's
    runtime value as text).  [unsupportedForTarget] declares its argument as
    [Exclude<LuaTarget, LuaTarget.Universal>]; the narrowing restricts
    callers only, the body runs on any member. *)
Class CompilerOptions : Type := {
  LuaTarget : Type;
  LuaTarget_eq_dec : forall a b : LuaTarget, {a = b} + {a <> b};
  LuaJIT : LuaTarget;
  Universal : LuaTarget;
  LuaTarget_toString : LuaTarget -> string
}.

(** [AnnotationKind] is a string enumeration: its members are their tags. *)
Definition AnnotationKind : Set := string.

(** A concrete implementation of the two interfaces, used to run the
    catalog on explicit inputs: a node carries its resolved position, a
    syntax kind is known by its name, and the targets are the strings of the
    enumeration. *)
Definition ResolvedNodes : TypeScript :=
  {| Node := string * Z * Z;
     SourceFile := string;
     getSourceFile := fun node => fst (fst node);
     getStart := fun node => snd (fst node);
     getWidth := fun node => snd node;
     SyntaxKind := string;
     SyntaxKind_name := fun kind => kind;
     any := string |}.

Definition StringTargets : CompilerOptions :=
  {| LuaTarget := string;
     LuaTarget_eq_dec := string_dec;
     LuaJIT := "JIT";
     Universal := "universal";
     LuaTarget_toString := fun version => version |}.

(** A node of [ResolvedNodes]: five characters at offset 12 of "main.ts". *)
Definition sampleNode : @Node ResolvedNodes := ("main.ts", 12%Z, 5%Z).


(** ** The diagnostic record and the factory builder *)

(** [type MessageProvider<TArgs> = string | ((...args: TArgs) => string)] *)
Inductive MessageProvider (TArgs : Type) : Type :=
| Static (message : string)
| Computed (message : TArgs -> string).

Arguments Static {TArgs} message.
Arguments Computed {TArgs} message.

Section Diagnostics.

Context {ts : TypeScript} {options : CompilerOptions}.

(** The fields of [ts.Diagnostic] a factory fills in. *)
Record Diagnostic : Type := {
  file : SourceFile;
  start : Z;
  length : Z;
  messageText : string;
  category : DiagnosticCategory
}.

Definition DiagnosticFactory (TArgs : Type) : Type :=
  Node -> TArgs -> Diagnostic.

(** Modelled from the spec: [createSerialDiagnosticFactory] is imported from
    [src/utils.ts], which is not part of the sources at hand.  The spec
    describes the factory as the pure function [(node, ...args) ->
    DiagnosticRecord] whose record is the one assembled from the position,
    the category and the rendered text; the wrapper therefore hands back the
    record its callback creates. *)
Definition createSerialDiagnosticFactory {TArgs : Type}
    (create : Node -> TArgs -> Diagnostic) : DiagnosticFactory TArgs :=
  fun node args => create node args.

Definition createDiagnosticFactory {TArgs : Type}
    (category : DiagnosticCategory) (message : MessageProvider TArgs)
    : DiagnosticFactory TArgs :=
  createSerialDiagnosticFactory (fun (node : Node) (args : TArgs) =>
    {| file := getSourceFile node;
       start := getStart node;
       length := getWidth node;
       messageText :=
         match message with
         | Static message => message
         | Computed message => message args
         end;
       category := category |}).

Definition createErrorDiagnosticFactory {TArgs : Type}
    (message : MessageProvider TArgs) : DiagnosticFactory TArgs :=
  createDiagnosticFactory Error message.

Definition createWarningDiagnosticFactory {TArgs : Type}
    (message : MessageProvider TArgs) : DiagnosticFactory TArgs :=
  createDiagnosticFactory Warning message.

(** ** The catalog *)

Definition unsupportedNodeKind : DiagnosticFactory SyntaxKind :=
  createErrorDiagnosticFactory
    (Computed (fun kind : SyntaxKind =>
       "Unsupported node kind " ++ SyntaxKind_name kind)).

Definition forbiddenForIn : DiagnosticFactory (list any) :=
  createErrorDiagnosticFactory
    (Static "Iterating over arrays with 'for ... in' is not allowed.").

Definition unsupportedNoSelfFunctionConversion
    : DiagnosticFactory (optional string) :=
  createErrorDiagnosticFactory
    (Computed (fun name : optional string =>
       let nameReference :=
         if ToBoolean name then " '" ++ ToString name ++ "'" else "" in
       ("Unable to convert function with a 'this' parameter to function"
          ++ nameReference ++ " with no 'this'. ")
       ++ "To fix, wrap in an arrow function, or declare with 'this: void'.")).

Definition unsupportedSelfFunctionConversion
    : DiagnosticFactory (optional string) :=
  createErrorDiagnosticFactory
    (Computed (fun name : optional string =>
       let nameReference :=
         if ToBoolean name then " '" ++ ToString name ++ "'" else "" in
       ("Unable to convert function with no 'this' parameter to function"
          ++ nameReference ++ " with 'this'. ")
       ++ "To fix, wrap in an arrow function, or declare with 'this: any'.")).

Definition unsupportedOverloadAssignment
    : DiagnosticFactory (optional string) :=
  createErrorDiagnosticFactory
    (Computed (fun name : optional string =>
       let nameReference :=
         if ToBoolean name then " to '" ++ ToString name ++ "'" else "" in
       ("Unsupported assignment of function with different overloaded types for 'this'"
          ++ nameReference ++ ". ")
       ++ "Overloads should all have the same type for 'this'.")).

Definition decoratorInvalidContext : DiagnosticFactory (list any) :=
  createErrorDiagnosticFactory
    (Static "Decorator function cannot have 'this: void'.").

Definition annotationInvalidArgumentCount
    : DiagnosticFactory (AnnotationKind * number * number) :=
  createErrorDiagnosticFactory
    (Computed (fun '(kind, got, expected) =>
       "'@" ++ kind ++ "' expects " ++ Number_toString expected
         ++ " arguments, but got " ++ Number_toString got ++ ".")).

Definition extensionCannotConstruct : DiagnosticFactory (list any) :=
  createErrorDiagnosticFactory
    (Static "Cannot construct classes with '@extension' or '@metaExtension' annotation.").

Definition extensionCannotExtend : DiagnosticFactory (list any) :=
  createErrorDiagnosticFactory
    (Static "Cannot extend classes with '@extension' or '@metaExtension' annotation.").

Definition extensionCannotExport : DiagnosticFactory (list any) :=
  createErrorDiagnosticFactory
    (Static "Cannot export classes with '@extension' or '@metaExtension' annotation.").

Definition extensionInvalidInstanceOf : DiagnosticFactory (list any) :=
  createErrorDiagnosticFactory
    (Static "Cannot use instanceof on classes with '@extension' or '@metaExtension' annotation.").

Definition extensionAndMetaExtensionConflict : DiagnosticFactory (list any) :=
  createErrorDiagnosticFactory
    (Static "Cannot use both '@extension' and '@metaExtension' annotations on the same class.").

Definition metaExtensionMissingExtends : DiagnosticFactory (list any) :=
  createErrorDiagnosticFactory
    (Static "'@metaExtension' annotation requires the extension of the metatable class.").

Definition invalidForRangeCall : DiagnosticFactory string :=
  createErrorDiagnosticFactory
    (Computed (fun message : string =>
       "Invalid @forRange call: " ++ message ++ ".")).

Definition luaTableMustBeAmbient : DiagnosticFactory (list any) :=
  createErrorDiagnosticFactory
    (Static "Classes with the '@luaTable' annotation must be ambient.").

Definition luaTableCannotBeExtended : DiagnosticFactory (list any) :=
  createErrorDiagnosticFactory
    (Static "Cannot extend classes with the '@luaTable' annotation.").

Definition luaTableInvalidInstanceOf : DiagnosticFactory (list any) :=
  createErrorDiagnosticFactory
    (Static "The instanceof operator cannot be used with a '@luaTable' class.").

Definition luaTableCannotBeAccessedDynamically : DiagnosticFactory (list any) :=
  createErrorDiagnosticFactory
    (Static "@luaTable cannot be accessed dynamically.").

Definition luaTableForbiddenUsage : DiagnosticFactory string :=
  createErrorDiagnosticFactory
    (Computed (fun description : string =>
       "Invalid @luaTable usage: " ++ description ++ ".")).

Definition luaIteratorForbiddenUsage : DiagnosticFactory (list any) :=
  createErrorDiagnosticFactory
    (Static
       (("Unsupported use of lua iterator with '@tupleReturn' annotation in for...of statement. "
         ++ "You must use a destructuring statement to catch results from a lua iterator with ")
        ++ "the '@tupleReturn' annotation.")).

Definition unsupportedAccessorInObjectLiteral : DiagnosticFactory (list any) :=
  createErrorDiagnosticFactory
    (Static "Accessors in object literal are not supported.").

Definition unsupportedRightShiftOperator : DiagnosticFactory (list any) :=
  createErrorDiagnosticFactory
    (Static "Right shift operator is not supported for target Lua 5.3. Use `>>>` instead.").

Definition getLuaTargetName (version : LuaTarget) : string :=
  if LuaTarget_eq_dec version LuaJIT
  then "LuaJIT"
  else "Lua " ++ LuaTarget_toString version.

Definition unsupportedForTarget : DiagnosticFactory (string * LuaTarget) :=
  createErrorDiagnosticFactory
    (Computed (fun '(functionality, version) =>
       functionality ++ " is/are not supported for target "
         ++ getLuaTargetName version ++ ".")).

Definition unsupportedProperty : DiagnosticFactory (string * string) :=
  createErrorDiagnosticFactory
    (Computed (fun '(parentName, property) =>
       parentName ++ "." ++ property ++ " is unsupported.")).

Definition invalidAmbientIdentifierName : DiagnosticFactory string :=
  createErrorDiagnosticFactory
    (Computed (fun text : string =>
       "Invalid ambient identifier name '" ++ text
         ++ "'. Ambient identifiers must be valid lua identifiers.")).

Definition unresolvableRequirePath : DiagnosticFactory string :=
  createErrorDiagnosticFactory
    (Computed (fun path : string =>
       "Cannot create require path. Module '" ++ path
         ++ "' does not exist within --rootDir.")).

Definition unsupportedVarDeclaration : DiagnosticFactory (list any) :=
  createErrorDiagnosticFactory
    (Static "`var` declarations are not supported. Use `let` or `const` instead.").

Definition annotationDeprecated : DiagnosticFactory AnnotationKind :=
  createWarningDiagnosticFactory
    (Computed (fun kind : AnnotationKind =>
       ("'@" ++ kind ++ "' is deprecated and will be removed in a future update. Please update your code before upgrading to the next release, otherwise your project will no longer compile. ")
       ++ ("See https://typescripttolua.github.io/docs/advanced/compiler-annotations#"
           ++ toLowerCase kind ++ " for more information."))).

(** ** The catalog as a whole

    One name per exported factory, the argument tuple each one declares, and
    the factory bound to each name. *)

Inductive CatalogEntry : Set :=
| UnsupportedNodeKind
| ForbiddenForIn
| UnsupportedNoSelfFunctionConversion
| UnsupportedSelfFunctionConversion
| UnsupportedOverloadAssignment
| DecoratorInvalidContext
| AnnotationInvalidArgumentCount
| ExtensionCannotConstruct
| ExtensionCannotExtend
| ExtensionCannotExport
| ExtensionInvalidInstanceOf
| ExtensionAndMetaExtensionConflict
| MetaExtensionMissingExtends
| InvalidForRangeCall
| LuaTableMustBeAmbient
| LuaTableCannotBeExtended
| LuaTableInvalidInstanceOf
| LuaTableCannotBeAccessedDynamically
| LuaTableForbiddenUsage
| LuaIteratorForbiddenUsage
| UnsupportedAccessorInObjectLiteral
| UnsupportedRightShiftOperator
| UnsupportedForTarget
| UnsupportedProperty
| InvalidAmbientIdentifierName
| UnresolvableRequirePath
| UnsupportedVarDeclaration
| AnnotationDeprecated.

Definition TArgsOf (entry : CatalogEntry) : Type :=
  match entry with
  | UnsupportedNodeKind => SyntaxKind
  | UnsupportedNoSelfFunctionConversion
  | UnsupportedSelfFunctionConversion
  | UnsupportedOverloadAssignment => optional string
  | AnnotationInvalidArgumentCount => AnnotationKind * number * number
  | InvalidForRangeCall
  | LuaTableForbiddenUsage
  | InvalidAmbientIdentifierName
  | UnresolvableRequirePath => string
  | UnsupportedForTarget => string * LuaTarget
  | UnsupportedProperty => string * string
  | AnnotationDeprecated => AnnotationKind
  | _ => list any
  end.

Definition factory (entry : CatalogEntry) : DiagnosticFactory (TArgsOf entry) :=
  match entry with
  | UnsupportedNodeKind => unsupportedNodeKind
  | ForbiddenForIn => forbiddenForIn
  | UnsupportedNoSelfFunctionConversion => unsupportedNoSelfFunctionConversion
  | UnsupportedSelfFunctionConversion => unsupportedSelfFunctionConversion
  | UnsupportedOverloadAssignment => unsupportedOverloadAssignment
  | DecoratorInvalidContext => decoratorInvalidContext
  | AnnotationInvalidArgumentCount => annotationInvalidArgumentCount
  | ExtensionCannotConstruct => extensionCannotConstruct
  | ExtensionCannotExtend => extensionCannotExtend
  | ExtensionCannotExport => extensionCannotExport
  | ExtensionInvalidInstanceOf => extensionInvalidInstanceOf
  | ExtensionAndMetaExtensionConflict => extensionAndMetaExtensionConflict
  | MetaExtensionMissingExtends => metaExtensionMissingExtends
  | InvalidForRangeCall => invalidForRangeCall
  | LuaTableMustBeAmbient => luaTableMustBeAmbient
  | LuaTableCannotBeExtended => luaTableCannotBeExtended
  | LuaTableInvalidInstanceOf => luaTableInvalidInstanceOf
  | LuaTableCannotBeAccessedDynamically => luaTableCannotBeAccessedDynamically
  | LuaTableForbiddenUsage => luaTableForbiddenUsage
  | LuaIteratorForbiddenUsage => luaIteratorForbiddenUsage
  | UnsupportedAccessorInObjectLiteral => unsupportedAccessorInObjectLiteral
  | UnsupportedRightShiftOperator => unsupportedRightShiftOperator
  | UnsupportedForTarget => unsupportedForTarget
  | UnsupportedProperty => unsupportedProperty
  | InvalidAmbientIdentifierName => invalidAmbientIdentifierName
  | UnresolvableRequirePath => unresolvableRequirePath
  | UnsupportedVarDeclaration => unsupportedVarDeclaration
  | AnnotationDeprecated => annotationDeprecated
  end.

(** [splices render before inserted after name]: rendered without a name
    the text is [before ++ after]; rendered with [name] it is the same text
    with [inserted] spliced in between the two parts. *)
Definition splices (render : optional string -> string)
    (before inserted after : string) (name : string) : Prop :=
  render undefined = before ++ after
  /\ render (Some name) = before ++ inserted ++ after.

(** The two shapes differ by one space and the quoted name, at one place. *)
Definition splicesQuotedName (render : optional string -> string)
    (name : string) : Prop :=
  exists before after : string,
    splices render before (" '" ++ name ++ "'") after name.

(** [occurs c s]: the character [c] is one of the characters of [s]. *)
Fixpoint occurs (c : ascii) (s : string) : bool :=
  match s with
  | EmptyString => false
  | String d rest => (c =? d)%char || occurs c rest
  end.

End Diagnostics.

(** ** Invocation in the running program

    The embedding above reads [node.getSourceFile()], [node.getStart()] and
    [node.getWidth()] as total functions of the node.  In the running
    program they are method calls of the compiler API: a call starts in a
    state of the program, may read and change it, and either returns a value
    or throws.  This part runs the same builder and the same catalog with
    those effects. *)

Inductive Completion (A : Type) : Type :=
| Normal (value : A)
| Throw (exception : string).

Arguments Normal {A} value.
Arguments Throw {A} exception.

(** The compiler API as the running program meets it. *)
Class Host : Type := {
  State : Type;
  HostNode : Type;
  HostSourceFile : Type;
  callGetSourceFile : HostNode -> State -> Completion HostSourceFile * State;
  callGetStart : HostNode -> State -> Completion Z * State;
  callGetWidth : HostNode -> State -> Completion Z * State;
  HostSyntaxKind : Type;
  HostSyntaxKind_name : HostSyntaxKind -> string;
  HostAny : Type
}.

(** Once the three calls have returned, what is left of a node is the
    position they gave: the [TypeScript] interface over resolved positions. *)
Definition Resolved (host : Host) : TypeScript :=
  {| Node := HostSourceFile * Z * Z;
     SourceFile := HostSourceFile;
     getSourceFile := fun position => fst (fst position);
     getStart := fun position => snd (fst position);
     getWidth := fun position => snd position;
     SyntaxKind := HostSyntaxKind;
     SyntaxKind_name := HostSyntaxKind_name;
     any := HostAny |}.


Module Running.

Section Invocation.

Context {host : Host} {options : CompilerOptions}.

(** A computation of the running program: from a state to a completion and
    the state it leaves. *)
Definition Run (A : Type) : Type := State -> Completion A * State.

Definition ret {A : Type} (value : A) : Run A :=
  fun s => (Normal value, s).

(** Sequencing: a throw ends the computation and keeps the state reached. *)
Definition bind {A B : Type} (m : Run A) (k : A -> Run B) : Run B :=
  fun s =>
    match m s with
    | (Normal value, s') => k value s'
    | (Throw exception, s') => (Throw exception, s')
    end.

Notation "x <- m ;; k" := (bind m (fun x => k))
  (at level 61, m at next level, right associativity).

Definition DiagnosticFactory (TArgs : Type) : Type :=
  HostNode -> TArgs -> Run (@Diagnostic (Resolved host)).

(** Modelled from the spec: [createSerialDiagnosticFactory] of
    [src/utils.ts], which is not part of the sources at hand; as in the
    embedding above, the factory it returns runs the callback and hands back
    its record. *)
Definition createSerialDiagnosticFactory {TArgs : Type}
    (create : HostNode -> TArgs -> Run (@Diagnostic (Resolved host)))
    : DiagnosticFactory TArgs :=
  fun node args => create node args.

(** The callback of [createDiagnosticFactory]: the property values of the
    object literal are evaluated in the order they are written, so the three
    calls run first, in that order, before the text is rendered. *)
Definition createDiagnosticFactory {TArgs : Type}
    (category : DiagnosticCategory) (message : MessageProvider TArgs)
    : DiagnosticFactory TArgs :=
  createSerialDiagnosticFactory (fun (node : HostNode) (args : TArgs) =>
    file <- callGetSourceFile node ;;
    start <- callGetStart node ;;
    length <- callGetWidth node ;;
    ret (@Build_Diagnostic (Resolved host) file start length
           match message with
           | Static message => message
           | Computed message => message args
           end
           category)).

(** The three calls of the callback, giving the position of the node. *)
Definition resolve (node : HostNode) : Run (@Node (Resolved host)) :=
  file <- callGetSourceFile node ;;
  start <- callGetStart node ;;
  width <- callGetWidth node ;;
  ret (file, start, width).

(** A catalog entry in the running program: the entry of the catalog above,
    given the position the three calls resolve the node to. *)
Definition factory (entry : CatalogEntry)
    : DiagnosticFactory (@TArgsOf (Resolved host) options entry) :=
  fun node args =>
    position <- resolve node ;;
    ret (@factory (Resolved host) options entry position args).

End Invocation.

End Running.

(** A host with the two sorts of node of the compiler API: a node parsed
    from a file, which knows its position, and a synthesized node, which has
    none: its source file is [undefined], and [getStart] and [getWidth] throw
    on it.  The state is a counter the program keeps; the three calls leave
    it alone. *)
Inductive SampleHostNode : Set :=
| Parsed (file : string) (start width : Z)
| Synthesized.

Definition SampleHost : Host :=
  {| State := nat;
     HostNode := SampleHostNode;
     HostSourceFile := optional string;
     callGetSourceFile := fun node s =>
       match node with
       | Parsed file _ _ => (Normal (Some file), s)
       | Synthesized => (Normal undefined, s)
       end;
     callGetStart := fun node s =>
       match node with
       | Parsed _ start _ => (Normal start, s)
       | Synthesized =>
           (Throw "Node must have a real position for this operation", s)
       end;
     callGetWidth := fun node s =>
       match node with
       | Parsed _ _ width => (Normal width, s)
       | Synthesized =>
           (Throw "Node must have a real position for this operation", s)
       end;
     HostSyntaxKind := string;
     HostSyntaxKind_name := fun kind => kind;
     HostAny := string |}.

(** A host whose [getStart] is not pure: the state is a number of edits
    made to the file so far, each of which moved the node by one, and every
    call of [getStart] is counted as one more. *)
Definition DriftingHost : Host :=
  {| State := Z;
     HostNode := string * Z * Z;
     HostSourceFile := string;
     callGetSourceFile := fun node s => (Normal (fst (fst node)), s);
     callGetStart := fun node s => (Normal (snd (fst node) + s)%Z, (s + 1)%Z);
     callGetWidth := fun node s => (Normal (snd node), s);
     HostSyntaxKind := string;
     HostSyntaxKind_name := fun kind => kind;
     HostAny := string |}.

(** [isSafeInteger n]: [Number.isSafeInteger], the range in which
    [Number_toString] is the printing of the program. *)
Definition isSafeInteger (n : number) : bool :=
  (Z.abs n <? 2 ^ 53)%Z.

Section Properties.

Context {ts : TypeScript} {options : CompilerOptions}.

(** ** Facts about strings and lower-casing *)

Lemma string_append_assoc (a b c : string) : (a ++ b) ++ c = a ++ b ++ c.
Proof.
  induction a as [|ch a IH]; simpl.
  - reflexivity.
  - now rewrite IH.
Qed.

Lemma string_length_append (a b : string) :
  String.length (a ++ b) = (String.length a + String.length b)%nat.
Proof.
  induction a as [|ch a IH]; simpl; [reflexivity | now rewrite IH].
Qed.

Lemma prefix_iff_append (needle hay : string) :
  prefix needle hay = true <-> exists rest : string, hay = needle ++ rest.
Proof.
  revert hay. induction needle as [|c needle IH]; intros [|d hay]; simpl.
  - split; [now exists "" | reflexivity].
  - split; [now exists (String d hay) | reflexivity].
  - split; [discriminate | intros (rest & Hrest); discriminate].
  - destruct (ascii_dec c d) as [-> | Hcd].
    + rewrite IH. split; intros (rest & Hrest); exists rest.
      * now rewrite Hrest.
      * now injection Hrest.
    + split; [discriminate |].
      intros (rest & Hrest). injection Hrest as Hd _. congruence.
Qed.

(** [includes] holds exactly of the substrings. *)
Lemma includes_iff_substring (hay needle : string) :
  includes hay needle = true
  <-> exists before after : string, hay = before ++ needle ++ after.
Proof.
  induction hay as [|c hay IH]; cbn [includes];
    rewrite orb_true_iff, prefix_iff_append.
  - split.
    + intros [(rest & Hrest) | Hfalse]; [| discriminate].
      now exists "", rest.
    + intros (before & after & Hsplit). left.
      destruct before; [now exists after | discriminate].
  - rewrite IH. split.
    + intros [(rest & Hrest) | (before & after & Hsplit)].
      * now exists "", rest.
      * exists (String c before), after. simpl. now rewrite Hsplit.
    + intros (before & after & Hsplit).
      destruct before as [|d before]; simpl in Hsplit.
      * left. now exists after.
      * right. injection Hsplit as _ Hrest. now exists before, after.
Qed.

Lemma toLowerCase_char_not_upper (c : ascii) :
  isUpper (toLowerCase_char c) = false.
Proof.
  destruct c as [[] [] [] [] [] [] [] []]; reflexivity.
Qed.

Lemma toLowerCase_idempotent (s : string) :
  toLowerCase (toLowerCase s) = toLowerCase s.
Proof.
  induction s as [|c s IH]; simpl; [reflexivity |].
  rewrite IH. f_equal.
  unfold toLowerCase_char at 1.
  now rewrite toLowerCase_char_not_upper.
Qed.

Lemma toLowerCase_length (s : string) :
  String.length (toLowerCase s) = String.length s.
Proof.
  induction s as [|c s IH]; simpl; [reflexivity | now rewrite IH].
Qed.

Lemma ToBoolean_nonempty (name : string) :
  name <> "" -> ToBoolean (Some name) = true.
Proof.
  destruct name; [congruence | reflexivity].
Qed.

(** ** The builder *)

Ltac unfold_builder :=
  unfold createErrorDiagnosticFactory, createWarningDiagnosticFactory,
    createDiagnosticFactory, createSerialDiagnosticFactory.

Lemma createDiagnosticFactory_span {TArgs : Type}
    (c : DiagnosticCategory) (m : MessageProvider TArgs)
    (node : Node) (args : TArgs) :
  file (createDiagnosticFactory c m node args) = getSourceFile node
  /\ start (createDiagnosticFactory c m node args) = getStart node
  /\ length (createDiagnosticFactory c m node args) = getWidth node.
Proof.
  unfold_builder. cbn. repeat split.
Qed.

Lemma createDiagnosticFactory_category {TArgs : Type}
    (c : DiagnosticCategory) (m : MessageProvider TArgs)
    (node : Node) (args : TArgs) :
  category (createDiagnosticFactory c m node args) = c.
Proof.
  reflexivity.
Qed.

Lemma createDiagnosticFactory_static {TArgs : Type}
    (c : DiagnosticCategory) (text : string) (node : Node) (args : TArgs) :
  messageText (createDiagnosticFactory c (Static text) node args) = text.
Proof.
  reflexivity.
Qed.

Lemma createDiagnosticFactory_computed {TArgs : Type}
    (c : DiagnosticCategory) (render : TArgs -> string)
    (node : Node) (args : TArgs) :
  messageText (createDiagnosticFactory c (Computed render) node args)
  = render args.
Proof.
  reflexivity.
Qed.

(** Every entry of the catalog comes out of the one builder. *)
Lemma factory_built (entry : CatalogEntry) :
  exists (c : DiagnosticCategory) (m : MessageProvider (TArgsOf entry)),
    factory entry = createDiagnosticFactory c m.
Proof.
  destruct entry; simpl; eexists; eexists; reflexivity.
Qed.


(** ** Properties of every catalog factory *)

(** C1: for every catalog factory, node and argument list, the record the
    factory returns has [file], [start] and [length] equal to
    [node.getSourceFile()], [node.getStart()] and [node.getWidth()]. *)
Theorem factory_span_is_node_position
    (entry : CatalogEntry) (node : Node) (args : TArgsOf entry) :
  file (factory entry node args) = getSourceFile node
  /\ start (factory entry node args) = getStart node
  /\ length (factory entry node args) = getWidth node.
Proof.
  destruct (factory_built entry) as (c & m & ->).
  apply createDiagnosticFactory_span.
Qed.

(** C6: a catalog factory built with a constant-string message provider
    returns that string as its text, whatever the node and the extra
    arguments; [forbiddenForIn] and [unsupportedVarDeclaration] are two such
    factories. *)
Theorem static_message_is_constant :
  (forall (entry : CatalogEntry) (c : DiagnosticCategory) (text : string),
     factory entry = createDiagnosticFactory c (Static text) ->
     forall (node : Node) (args : TArgsOf entry),
       messageText (factory entry node args) = text)
  /\ (forall (node : Node) (args : list any),
        messageText (forbiddenForIn node args)
        = "Iterating over arrays with 'for ... in' is not allowed.")
  /\ (forall (node : Node) (args : list any),
        messageText (unsupportedVarDeclaration node args)
        = "`var` declarations are not supported. Use `let` or `const` instead.").
Proof.
  split; [| split].
  - intros entry c text Hbuilt node args.
    rewrite Hbuilt. apply createDiagnosticFactory_static.
  - intros node args. apply createDiagnosticFactory_static.
  - intros node args. apply createDiagnosticFactory_static.
Qed.

(** C7: the category of a record is the severity its factory was built
    with: [Error] through [createErrorDiagnosticFactory], [Warning] through
    [createWarningDiagnosticFactory]; within the catalog it is the same for
    all nodes and arguments, [Warning] for [annotationDeprecated] and [Error]
    for every other entry. *)
Theorem category_fixed_at_construction :
  (forall (TArgs : Type) (m : MessageProvider TArgs) (node : Node) (args : TArgs),
     category (createErrorDiagnosticFactory m node args) = Error)
  /\ (forall (TArgs : Type) (m : MessageProvider TArgs) (node : Node) (args : TArgs),
        category (createWarningDiagnosticFactory m node args) = Warning)
  /\ (forall (entry : CatalogEntry) (node node' : Node) (args args' : TArgsOf entry),
        category (factory entry node args) = category (factory entry node' args'))
  /\ (forall (entry : CatalogEntry) (node : Node) (args : TArgsOf entry),
        category (factory entry node args)
        = match entry with
          | AnnotationDeprecated => Warning
          | _ => Error
          end).
Proof.
  repeat split.
  - intros entry node node' args args'.
    destruct (factory_built entry) as (c & m & ->).
    now rewrite !createDiagnosticFactory_category.
  - intros entry node args. destruct entry; reflexivity.
Qed.

(** ** Properties of individual message templates *)

(** C3: [annotationInvalidArgumentCount] called with kind "foo", got 2 and
    expected 1 renders "'@foo' expects 1 arguments, but got 2.": the expected
    count comes first and "arguments" stays plural for a count of one, as it
    does for every count. *)
Theorem annotationInvalidArgumentCount_foo_2_1 :
  (forall node : Node,
     messageText (annotationInvalidArgumentCount node ("foo", 2%Z, 1%Z))
     = "'@foo' expects 1 arguments, but got 2.")
  /\ (forall (node : Node) (kind : AnnotationKind) (got expected : number),
        messageText (annotationInvalidArgumentCount node (kind, got, expected))
        = "'@" ++ kind ++ "' expects " ++ Number_toString expected
            ++ " arguments, but got " ++ Number_toString got ++ ".").
Proof.
  split; intros; reflexivity.
Qed.

(** C4: for kind "MyAnnotation" the text of [annotationDeprecated] holds the
    documentation address ending in the anchor "#myannotation" and the body
    "'@MyAnnotation'" in its original case, and neither the original case in
    the anchor nor the lower case in the body.  For every kind the tag goes
    lower-cased into the anchor and verbatim into the body, and the other
    factory that prints a tag, [annotationInvalidArgumentCount], prints it
    verbatim. *)
Theorem annotationDeprecated_lowercases_only_the_anchor :
  (forall node : Node,
     includes (messageText (annotationDeprecated node "MyAnnotation"))
       "See https://typescripttolua.github.io/docs/advanced/compiler-annotations#myannotation for more information."
     = true
     /\ includes (messageText (annotationDeprecated node "MyAnnotation"))
          "'@MyAnnotation' is deprecated"
        = true
     /\ includes (messageText (annotationDeprecated node "MyAnnotation"))
          "#MyAnnotation"
        = false
     /\ includes (messageText (annotationDeprecated node "MyAnnotation"))
          "@myannotation"
        = false)
  /\ (forall (node : Node) (kind : AnnotationKind),
        messageText (annotationDeprecated node kind)
        = "'@" ++ kind
            ++ "' is deprecated and will be removed in a future update. Please update your code before upgrading to the next release, otherwise your project will no longer compile. See https://typescripttolua.github.io/docs/advanced/compiler-annotations#"
            ++ toLowerCase kind ++ " for more information.")
  /\ (forall (node : Node) (kind : AnnotationKind) (got expected : number),
        messageText (annotationInvalidArgumentCount node (kind, got, expected))
        = "'@" ++ kind ++ "' expects " ++ Number_toString expected
            ++ " arguments, but got " ++ Number_toString got ++ ".").
Proof.
  split; [| split].
  - intros node. repeat split; vm_compute; reflexivity.
  - intros node kind.
    unfold annotationDeprecated, createWarningDiagnosticFactory.
    rewrite createDiagnosticFactory_computed.
    rewrite !string_append_assoc. reflexivity.
  - intros node kind got expected. reflexivity.
Qed.

(** C5: [getLuaTargetName] renders the target [LuaJIT] as the one alias
    "LuaJIT" and every other target as "Lua " followed by the target itself;
    that name is what [unsupportedForTarget] prints. *)
Theorem getLuaTargetName_alias_or_version :
  getLuaTargetName LuaJIT = "LuaJIT"
  /\ (forall version : LuaTarget,
        version <> LuaJIT ->
        getLuaTargetName version = "Lua " ++ LuaTarget_toString version)
  /\ (forall (node : Node) (functionality : string) (version : LuaTarget),
        messageText (unsupportedForTarget node (functionality, version))
        = functionality ++ " is/are not supported for target "
            ++ getLuaTargetName version ++ ".").
Proof.
  unfold getLuaTargetName. split; [| split].
  - destruct (LuaTarget_eq_dec LuaJIT LuaJIT) as [_ | Hne];
      [reflexivity | now elim Hne].
  - intros version Hother.
    destruct (LuaTarget_eq_dec version LuaJIT) as [Heq | _];
      [now elim Hother | reflexivity].
  - intros node functionality version. reflexivity.
Qed.

(** C10: for each of the three optional-name factories the empty string as
    name renders the same text as no name at all. *)
Theorem empty_name_renders_as_absent (node : Node) :
  messageText (unsupportedNoSelfFunctionConversion node (Some ""))
  = messageText (unsupportedNoSelfFunctionConversion node undefined)
  /\ messageText (unsupportedSelfFunctionConversion node (Some ""))
     = messageText (unsupportedSelfFunctionConversion node undefined)
  /\ messageText (unsupportedOverloadAssignment node (Some ""))
     = messageText (unsupportedOverloadAssignment node undefined).
Proof.
  repeat split.
Qed.

(** C2, as the code has it: with no name the text of an optional-name
    factory carries no name reference; with a non-empty name the reference is
    spliced in at one fixed place and nothing else changes.  The reference is
    one space and the quoted name for [unsupportedNoSelfFunctionConversion]
    and [unsupportedSelfFunctionConversion], and " to " followed by the
    quoted name for [unsupportedOverloadAssignment]. *)
Theorem optional_name_reference_shape (node : Node) (name : string) :
  name <> "" ->
  splices
    (fun name => messageText (unsupportedNoSelfFunctionConversion node name))
    "Unable to convert function with a 'this' parameter to function"
    (" '" ++ name ++ "'")
    " with no 'this'. To fix, wrap in an arrow function, or declare with 'this: void'."
    name
  /\ splices
       (fun name => messageText (unsupportedSelfFunctionConversion node name))
       "Unable to convert function with no 'this' parameter to function"
       (" '" ++ name ++ "'")
       " with 'this'. To fix, wrap in an arrow function, or declare with 'this: any'."
       name
  /\ splices
       (fun name => messageText (unsupportedOverloadAssignment node name))
       "Unsupported assignment of function with different overloaded types for 'this'"
       (" to '" ++ name ++ "'")
       ". Overloads should all have the same type for 'this'."
       name.
Proof.
  intros Hname. apply ToBoolean_nonempty in Hname.
  unfold splices.
  unfold unsupportedNoSelfFunctionConversion, unsupportedSelfFunctionConversion,
    unsupportedOverloadAssignment, createErrorDiagnosticFactory.
  rewrite !createDiagnosticFactory_computed.
  cbv zeta. rewrite Hname. cbn [ToString].
  repeat split; try reflexivity;
    rewrite !string_append_assoc; reflexivity.
Qed.

(** ** Cancellation in string concatenation *)

Lemma string_append_cancel_l (a b c : string) : a ++ b = a ++ c -> b = c.
Proof.
  induction a as [|ch a IH]; simpl; intros Heq.
  - exact Heq.
  - injection Heq as Heq. now apply IH.
Qed.

Lemma string_append_same_length (a a' r r' : string) :
  String.length a = String.length a' ->
  a ++ r = a' ++ r' ->
  a = a' /\ r = r'.
Proof.
  revert a'. induction a as [|ch a IH]; intros [|ch' a'] Hlen Heq;
    simpl in *; try discriminate.
  - now split.
  - injection Heq as -> Heq. injection Hlen as Hlen.
    destruct (IH a' Hlen Heq) as [-> ->]. now split.
Qed.

Lemma string_append_cancel_r (a b c : string) : a ++ c = b ++ c -> a = b.
Proof.
  intros Heq.
  assert (Hlen : String.length a = String.length b).
  { apply (f_equal String.length) in Heq.
    rewrite !string_length_append in Heq. lia. }
  now destruct (string_append_same_length a b c c Hlen Heq).
Qed.

(** Two texts that agree, each cut at the first occurrence of [c], agree
    before and after the cut. *)
Lemma string_split_at_first (c : ascii) (a a' r r' : string) :
  occurs c a = false ->
  occurs c a' = false ->
  a ++ String c r = a' ++ String c r' ->
  a = a' /\ r = r'.
Proof.
  revert a'. induction a as [|ch a IH]; intros [|ch' a'] Ha Ha' Heq;
    simpl in *.
  - injection Heq as ->. now split.
  - injection Heq as <- _. now rewrite Ascii.eqb_refl in Ha'.
  - injection Heq as -> _. now rewrite Ascii.eqb_refl in Ha.
  - apply orb_false_iff in Ha as [_ Ha]. apply orb_false_iff in Ha' as [_ Ha'].
    injection Heq as -> Heq.
    destruct (IH a' Ha Ha' Heq) as [-> ->]. now split.
Qed.

(** ** Printing of counts *)

Lemma Number_toString_inj (n n' : number) :
  Number_toString n = Number_toString n' -> n = n'.
Proof.
  unfold Number_toString. intros Heq.
  assert (Hparse : forall z : Z,
             NilZero.int_of_string (NilZero.string_of_int (Z.to_int z))
             = Some (Z.to_int z)).
  { intros z. apply NilZero.isi; destruct z; simpl; try discriminate;
      intros [= Hnil]; now apply DecimalPos.Unsigned.to_uint_nonnil in Hnil. }
  apply (f_equal NilZero.int_of_string) in Heq.
  rewrite !Hparse in Heq. injection Heq as Heq.
  now apply DecimalZ.to_int_inj.
Qed.

Lemma string_of_uint_digits (c : ascii) (d : Decimal.uint) :
  (N_of_ascii c <? 48)%N = true ->
  occurs c (NilEmpty.string_of_uint d) = false.
Proof.
  intros Hc.
  assert (Hdigit : forall n : N, (48 <= n)%N -> n = N_of_ascii (ascii_of_N n) ->
                     (c =? ascii_of_N n)%char = false).
  { intros n Hn Hround. apply Ascii.eqb_neq. intros ->.
    apply N.ltb_lt in Hc. lia. }
  induction d as [|d IH|d IH|d IH|d IH|d IH|d IH|d IH|d IH|d IH|d IH];
    simpl; [reflexivity | ..]; rewrite IH, orb_false_r.
  - now apply (Hdigit 48%N).
  - now apply (Hdigit 49%N).
  - now apply (Hdigit 50%N).
  - now apply (Hdigit 51%N).
  - now apply (Hdigit 52%N).
  - now apply (Hdigit 53%N).
  - now apply (Hdigit 54%N).
  - now apply (Hdigit 55%N).
  - now apply (Hdigit 56%N).
  - now apply (Hdigit 57%N).
Qed.

(** A printed count holds digits and at most a minus sign: no space. *)
Lemma Number_toString_no_space (n : number) :
  occurs " " (Number_toString n) = false.
Proof.
  assert (Huint : forall d : Decimal.uint,
             occurs " " (NilZero.string_of_uint d) = false).
  { intros d. destruct d; try reflexivity;
      now apply (string_of_uint_digits " "). }
  unfold Number_toString.
  destruct (Z.to_int n) as [d | d]; simpl.
  - apply Huint.
  - apply Huint.
Qed.

(** ** What a text tells about the arguments it was rendered from *)

(** X1: [getLuaTargetName] answers "LuaJIT" for the target [LuaJIT] and for
    no other target, whatever text the other targets print as. *)
Theorem getLuaTargetName_LuaJIT_iff (version : LuaTarget) :
  getLuaTargetName version = "LuaJIT" <-> version = LuaJIT.
Proof.
  unfold getLuaTargetName.
  destruct (LuaTarget_eq_dec version LuaJIT) as [Heq | Hne].
  - now split.
  - split; [| intros Heq; now elim Hne].
    simpl. intros Htext. discriminate Htext.
Qed.

Lemma getLuaTargetName_inj (version version' : LuaTarget) :
  (forall a b : LuaTarget,
     LuaTarget_toString a = LuaTarget_toString b -> a = b) ->
  getLuaTargetName version = getLuaTargetName version' ->
  version = version'.
Proof.
  intros Hinj Hname.
  destruct (LuaTarget_eq_dec version LuaJIT) as [-> | Hne].
  - symmetry. apply getLuaTargetName_LuaJIT_iff. rewrite <- Hname.
    now apply getLuaTargetName_LuaJIT_iff.
  - destruct (LuaTarget_eq_dec version' LuaJIT) as [-> | Hne'].
    + apply getLuaTargetName_LuaJIT_iff. rewrite Hname.
      now apply getLuaTargetName_LuaJIT_iff.
    + unfold getLuaTargetName in Hname.
      destruct (LuaTarget_eq_dec version LuaJIT); [contradiction |].
      destruct (LuaTarget_eq_dec version' LuaJIT); [contradiction |].
      apply Hinj. now apply (string_append_cancel_l "Lua ").
Qed.

(** X2: when distinct targets print as distinct texts, [unsupportedForTarget]
    renders one functionality differently for any two distinct targets: the
    alias "LuaJIT" does not collide with a name of the form "Lua <version>". *)
Theorem unsupportedForTarget_distinguishes_targets
    (node : Node) (functionality : string) (version version' : LuaTarget) :
  (forall a b : LuaTarget,
     LuaTarget_toString a = LuaTarget_toString b -> a = b) ->
  messageText (unsupportedForTarget node (functionality, version))
  = messageText (unsupportedForTarget node (functionality, version')) ->
  version = version'.
Proof.
  intros Hinj Htext.
  unfold unsupportedForTarget, createErrorDiagnosticFactory in Htext.
  rewrite !createDiagnosticFactory_computed in Htext.
  apply string_append_cancel_l, string_append_cancel_l in Htext.
  apply string_append_cancel_r in Htext.
  now apply getLuaTargetName_inj.
Qed.

(** X3: the four templates with one required string argument,
    [invalidForRangeCall], [luaTableForbiddenUsage],
    [invalidAmbientIdentifierName] and [unresolvableRequirePath], render two
    arguments as the same text only when the arguments are equal. *)
Theorem one_string_templates_injective (node : Node) (x y : string) :
  (messageText (invalidForRangeCall node x)
   = messageText (invalidForRangeCall node y) <-> x = y)
  /\ (messageText (luaTableForbiddenUsage node x)
      = messageText (luaTableForbiddenUsage node y) <-> x = y)
  /\ (messageText (invalidAmbientIdentifierName node x)
      = messageText (invalidAmbientIdentifierName node y) <-> x = y)
  /\ (messageText (unresolvableRequirePath node x)
      = messageText (unresolvableRequirePath node y) <-> x = y).
Proof.
  unfold invalidForRangeCall, luaTableForbiddenUsage,
    invalidAmbientIdentifierName, unresolvableRequirePath,
    createErrorDiagnosticFactory.
  rewrite !createDiagnosticFactory_computed.
  repeat split; try (intros ->; reflexivity); intros Htext;
    apply string_append_cancel_l in Htext;
    now apply string_append_cancel_r in Htext.
Qed.

(** X4: [annotationDeprecated] renders two annotation kinds as the same
    text only when the kinds are equal, also for kinds that differ in letter
    case alone and so share their documentation anchor. *)
Theorem annotationDeprecated_injective (node : Node) (kind kind' : AnnotationKind) :
  messageText (annotationDeprecated node kind)
  = messageText (annotationDeprecated node kind')
  <-> kind = kind'.
Proof.
  split; [| intros ->; reflexivity].
  unfold annotationDeprecated, createWarningDiagnosticFactory.
  rewrite !createDiagnosticFactory_computed.
  rewrite !string_append_assoc. intros Htext.
  apply (string_append_cancel_l "'@") in Htext.
  refine (proj1 (string_append_same_length _ _ _ _ _ Htext)).
  apply (f_equal String.length) in Htext.
  rewrite !string_length_append, !toLowerCase_length in Htext.
  lia.
Qed.

(** X5: [annotationInvalidArgumentCount] renders, for one annotation kind,
    two pairs of counts that are safe integers as the same text only when
    both counts agree. *)
Theorem annotationInvalidArgumentCount_determines_counts
    (node : Node) (kind : AnnotationKind) (got expected got' expected' : number) :
  isSafeInteger got = true ->
  isSafeInteger expected = true ->
  isSafeInteger got' = true ->
  isSafeInteger expected' = true ->
  (messageText (annotationInvalidArgumentCount node (kind, got, expected))
   = messageText (annotationInvalidArgumentCount node (kind, got', expected'))
   <-> got = got' /\ expected = expected').
Proof.
  intros _ _ _ _.
  split; [| intros [-> ->]; reflexivity].
  unfold annotationInvalidArgumentCount, createErrorDiagnosticFactory.
  rewrite !createDiagnosticFactory_computed. intros Htext.
  apply (string_append_cancel_l "'@"), string_append_cancel_l,
    (string_append_cancel_l "' expects ") in Htext.
  apply (string_split_at_first " ") in Htext;
    try apply Number_toString_no_space.
  destruct Htext as [Hexpected Hrest].
  apply (string_append_cancel_l "arguments, but got ") in Hrest.
  apply string_append_cancel_r in Hrest.
  split; now apply Number_toString_inj.
Qed.

(** X6: the dot [unsupportedProperty] puts between parent and property does
    not tell where the parent ends: moving a dotted part from the parent to
    the property leaves the text unchanged. *)
Theorem unsupportedProperty_dot_is_ambiguous
    (node : Node) (parentName middle property : string) :
  messageText (unsupportedProperty node (parentName ++ "." ++ middle, property))
  = messageText (unsupportedProperty node (parentName, middle ++ "." ++ property)).
Proof.
  unfold unsupportedProperty, createErrorDiagnosticFactory.
  rewrite !createDiagnosticFactory_computed.
  now rewrite !string_append_assoc.
Qed.

(** X7: when neither parent name holds a dot, the text of
    [unsupportedProperty] determines both the parent and the property. *)
Theorem unsupportedProperty_injective_without_dots
    (node : Node) (parentName property parentName' property' : string) :
  occurs "." parentName = false ->
  occurs "." parentName' = false ->
  messageText (unsupportedProperty node (parentName, property))
  = messageText (unsupportedProperty node (parentName', property')) ->
  parentName = parentName' /\ property = property'.
Proof.
  intros Hparent Hparent' Htext.
  unfold unsupportedProperty, createErrorDiagnosticFactory in Htext.
  rewrite !createDiagnosticFactory_computed in Htext.
  apply (string_split_at_first ".") in Htext; [| assumption ..].
  destruct Htext as [-> Hrest].
  now apply string_append_cancel_r in Hrest.
Qed.

(** X8: when distinct syntax kinds have distinct names, [unsupportedNodeKind]
    renders two kinds as the same text only when the kinds are equal. *)
Theorem unsupportedNodeKind_injective (node : Node) (kind kind' : SyntaxKind) :
  (forall a b : SyntaxKind, SyntaxKind_name a = SyntaxKind_name b -> a = b) ->
  messageText (unsupportedNodeKind node kind)
  = messageText (unsupportedNodeKind node kind') ->
  kind = kind'.
Proof.
  intros Hinj Htext. apply Hinj.
  unfold unsupportedNodeKind, createErrorDiagnosticFactory in Htext.
  rewrite !createDiagnosticFactory_computed in Htext.
  now apply string_append_cancel_l in Htext.
Qed.

Lemma optional_reference_equal_iff
    (before intro after : string) (name name' : optional string) :
  before ++ (if ToBoolean name then intro ++ ToString name ++ "'" else "") ++ after
  = before ++ (if ToBoolean name' then intro ++ ToString name' ++ "'" else "") ++ after
  <-> name = name' \/ (ToBoolean name = false /\ ToBoolean name' = false).
Proof.
  split.
  - intros Htext.
    apply string_append_cancel_l, string_append_cancel_r in Htext.
    destruct (ToBoolean name) eqn:Hname, (ToBoolean name') eqn:Hname'.
    + left.
      apply string_append_cancel_l, string_append_cancel_r in Htext.
      destruct name as [x |], name' as [y |]; try discriminate.
      simpl in Htext. now subst.
    + apply (f_equal String.length) in Htext.
      rewrite !string_length_append in Htext. simpl in Htext. lia.
    + apply (f_equal String.length) in Htext.
      rewrite !string_length_append in Htext. simpl in Htext. lia.
    + now right.
  - intros [-> | [-> ->]]; reflexivity.
Qed.

(** X9: each optional-name factory renders two names as the same text
    exactly when the names are equal or both are falsy (absent or empty): a
    non-empty name always shows in the text, and two different non-empty
    names never share a text. *)
Theorem optional_name_texts_equal_iff (node : Node) (name name' : optional string) :
  (messageText (unsupportedNoSelfFunctionConversion node name)
   = messageText (unsupportedNoSelfFunctionConversion node name')
   <-> name = name' \/ (ToBoolean name = false /\ ToBoolean name' = false))
  /\ (messageText (unsupportedSelfFunctionConversion node name)
      = messageText (unsupportedSelfFunctionConversion node name')
      <-> name = name' \/ (ToBoolean name = false /\ ToBoolean name' = false))
  /\ (messageText (unsupportedOverloadAssignment node name)
      = messageText (unsupportedOverloadAssignment node name')
      <-> name = name' \/ (ToBoolean name = false /\ ToBoolean name' = false)).
Proof.
  unfold unsupportedNoSelfFunctionConversion, unsupportedSelfFunctionConversion,
    unsupportedOverloadAssignment, createErrorDiagnosticFactory.
  rewrite !createDiagnosticFactory_computed. cbv zeta.
  rewrite !string_append_assoc.
  split; [| split].
  - apply (optional_reference_equal_iff
             "Unable to convert function with a 'this' parameter to function"
             " '"
             " with no 'this'. To fix, wrap in an arrow function, or declare with 'this: void'.").
  - apply (optional_reference_equal_iff
             "Unable to convert function with no 'this' parameter to function"
             " '"
             " with 'this'. To fix, wrap in an arrow function, or declare with 'this: any'.").
  - apply (optional_reference_equal_iff
             "Unsupported assignment of function with different overloaded types for 'this'"
             " to '"
             ". Overloads should all have the same type for 'this'.").
Qed.

(** ** Further properties of every catalog factory *)

(** X10: no catalog factory ever renders an empty text, also when every
    string it is given is empty. *)
Theorem factory_text_never_empty
    (entry : CatalogEntry) (node : Node) (args : TArgsOf entry) :
  messageText (factory entry node args) <> "".
Proof.
  destruct entry; simpl in args |- *;
    unfold_builder; cbn [messageText]; try discriminate.
  - destruct args as [[kind got] expected]. discriminate.
  - destruct args as [[| ch functionality] version]; discriminate.
  - destruct args as [[| ch parentName] property]; discriminate.
Qed.

(** X12: the text and the category a catalog factory gives do not depend
    on the node, and the position it gives does not depend on the
    arguments. *)
Theorem factory_text_ignores_node
    (entry : CatalogEntry) (node node' : Node) (args args' : TArgsOf entry) :
  messageText (factory entry node args) = messageText (factory entry node' args)
  /\ category (factory entry node args) = category (factory entry node' args)
  /\ file (factory entry node args) = file (factory entry node args')
  /\ start (factory entry node args) = start (factory entry node args')
  /\ length (factory entry node args) = length (factory entry node args').
Proof.
  destruct (factory_built entry) as (c & m & ->).
  unfold_builder. cbn. repeat split.
Qed.

(** X13: the sixteen constant messages of the catalog are pairwise
    distinct: no two factories with a constant message share their text. *)
Theorem static_messages_pairwise_distinct (node : Node) (args : list any) :
  NoDup
    (map (fun f : DiagnosticFactory (list any) => messageText (f node args))
       [forbiddenForIn; decoratorInvalidContext; extensionCannotConstruct;
        extensionCannotExtend; extensionCannotExport;
        extensionInvalidInstanceOf; extensionAndMetaExtensionConflict;
        metaExtensionMissingExtends; luaTableMustBeAmbient;
        luaTableCannotBeExtended; luaTableInvalidInstanceOf;
        luaTableCannotBeAccessedDynamically; luaIteratorForbiddenUsage;
        unsupportedAccessorInObjectLiteral; unsupportedRightShiftOperator;
        unsupportedVarDeclaration]).
Proof.
  vm_compute.
  repeat (constructor; [cbn [In]; intuition discriminate |]).
  constructor.
Qed.

End Properties.

(** ** Properties of the invocation in the running program *)

Section RunningProperties.

Context {host : Host} {options : CompilerOptions}.

Ltac unfold_run :=
  cbv [Running.factory Running.resolve Running.createDiagnosticFactory
       Running.createSerialDiagnosticFactory Running.bind Running.ret].

(** When the three calls return, the running builder returns the record
    the builder of the embedding above makes of their results. *)
Lemma running_builder_returns {TArgs : Type}
    (c : DiagnosticCategory) (m : MessageProvider TArgs)
    (node : HostNode) (args : TArgs) (s s1 s2 s3 : State)
    (file : HostSourceFile) (start width : Z) :
  callGetSourceFile node s = (Normal file, s1) ->
  callGetStart node s1 = (Normal start, s2) ->
  callGetWidth node s2 = (Normal width, s3) ->
  Running.createDiagnosticFactory c m node args s
  = (Normal (@createDiagnosticFactory (Resolved host) TArgs c m
               (file, start, width) args), s3).
Proof.
  intros Hfile Hstart Hwidth. unfold_run.
  now rewrite Hfile, Hstart, Hwidth.
Qed.

(** A running catalog entry is the running builder, applied to the category
    and the message provider its entry in the catalog is built from. *)
Lemma running_factory_built (entry : CatalogEntry) :
  exists (c : DiagnosticCategory)
         (m : MessageProvider (@TArgsOf (Resolved host) options entry)),
    @factory (Resolved host) options entry = createDiagnosticFactory c m
    /\ forall (node : HostNode) (args : @TArgsOf (Resolved host) options entry)
              (s : State),
         Running.factory entry node args s
         = Running.createDiagnosticFactory c m node args s.
Proof.
  destruct (@factory_built (Resolved host) options entry) as (c & m & Hbuilt).
  exists c, m. split; [exact Hbuilt |].
  intros node args s. unfold_run. rewrite Hbuilt.
  destruct (callGetSourceFile node s) as [[file | e] s1]; [| reflexivity].
  destruct (callGetStart node s1) as [[start | e] s2]; [| reflexivity].
  destruct (callGetWidth node s2) as [[width | e] s3]; reflexivity.
Qed.

(** C8, as the code has it: an invocation of a catalog factory yields
    exactly one record whenever the three calls [node.getSourceFile()],
    [node.getStart()] and [node.getWidth()] return, and that record is made
    of their results; the factory has no error branch of its own, so when an
    invocation throws, one of the three calls threw, and the invocation
    throws what that call threw. *)
Theorem invocation_yields_one_record_unless_a_call_throws
    (entry : CatalogEntry) (node : HostNode)
    (args : @TArgsOf (Resolved host) options entry) (s : State) :
  (forall (file : HostSourceFile) (start width : Z) (s1 s2 s3 : State),
     callGetSourceFile node s = (Normal file, s1) ->
     callGetStart node s1 = (Normal start, s2) ->
     callGetWidth node s2 = (Normal width, s3) ->
     Running.factory entry node args s
     = (Normal (@factory (Resolved host) options entry (file, start, width) args),
        s3))
  /\ (forall (exception : string) (s' : State),
        Running.factory entry node args s = (Throw exception, s') ->
        callGetSourceFile node s = (Throw exception, s')
        \/ (exists (file : HostSourceFile) (s1 : State),
              callGetSourceFile node s = (Normal file, s1)
              /\ (callGetStart node s1 = (Throw exception, s')
                  \/ (exists (start : Z) (s2 : State),
                        callGetStart node s1 = (Normal start, s2)
                        /\ callGetWidth node s2 = (Throw exception, s'))))).
Proof.
  split.
  - intros file start width s1 s2 s3 Hfile Hstart Hwidth.
    unfold_run. now rewrite Hfile, Hstart, Hwidth.
  - intros exception s'. unfold_run.
    destruct (callGetSourceFile node s) as [[file | e] s1]; cbn iota beta;
      [| intros [= -> ->]; now left].
    intros Hthrow. right. exists file, s1. split; [reflexivity |].
    destruct (callGetStart node s1) as [[start | e] s2]; cbn iota beta in Hthrow;
      [| injection Hthrow as -> ->; now left].
    right. exists start, s2. split; [reflexivity |].
    destruct (callGetWidth node s2) as [[width | e] s3]; cbn iota beta in Hthrow;
      [discriminate Hthrow | now injection Hthrow as -> ->].
Qed.


End RunningProperties.

(** ** The catalog on explicit inputs *)

Example annotationDeprecated_tupleReturn :
  @annotationDeprecated ResolvedNodes sampleNode "tupleReturn"
  = {| file := ("main.ts" : @SourceFile ResolvedNodes);
       start := 12;
       length := 5;
       messageText :=
         "'@tupleReturn' is deprecated and will be removed in a future update. Please update your code before upgrading to the next release, otherwise your project will no longer compile. See https://typescripttolua.github.io/docs/advanced/compiler-annotations#tuplereturn for more information.";
       category := Warning |}.
Proof. reflexivity. Qed.

Example unsupportedForTarget_LuaJIT :
  messageText
    (@unsupportedForTarget ResolvedNodes StringTargets sampleNode
       ("Bitwise operations", "JIT"))
  = "Bitwise operations is/are not supported for target LuaJIT.".
Proof. reflexivity. Qed.

Example unsupportedForTarget_Lua51 :
  messageText
    (@unsupportedForTarget ResolvedNodes StringTargets sampleNode
       ("Bitwise operations", "5.1"))
  = "Bitwise operations is/are not supported for target Lua 5.1.".
Proof. reflexivity. Qed.

Example unsupportedOverloadAssignment_named :
  messageText (@unsupportedOverloadAssignment ResolvedNodes sampleNode (Some "x"))
  = "Unsupported assignment of function with different overloaded types for 'this' to 'x'. Overloads should all have the same type for 'this'.".
Proof. reflexivity. Qed.

Example unsupportedOverloadAssignment_unnamed :
  messageText (@unsupportedOverloadAssignment ResolvedNodes sampleNode undefined)
  = "Unsupported assignment of function with different overloaded types for 'this'. Overloads should all have the same type for 'this'.".
Proof. reflexivity. Qed.

Example annotationInvalidArgumentCount_forRange_0_3 :
  messageText
    (@annotationInvalidArgumentCount ResolvedNodes sampleNode ("forRange", 0%Z, 3%Z))
  = "'@forRange' expects 3 arguments, but got 0.".
Proof. reflexivity. Qed.

(** C2 as stated fails for [unsupportedOverloadAssignment]: with the name
    "x" its text is not the text without a name with " 'x'" spliced in, at
    whatever place. *)
Lemma overload_reference_is_not_the_quoted_name_alone :
  ~ splicesQuotedName
      (fun name =>
         messageText
           (@unsupportedOverloadAssignment ResolvedNodes sampleNode name))
      "x".
Proof.
  unfold splicesQuotedName, splices.
  intros (before & after & Habsent & Hnamed).
  apply (f_equal String.length) in Habsent, Hnamed.
  rewrite string_length_append in Habsent.
  rewrite !string_length_append in Hnamed.
  simpl in Habsent, Hnamed.
  lia.
Qed.

(** [optional_name_reference_shape] at the name "x". *)
Lemma optional_name_reference_shape_at_x :
  "x" <> ""
  /\ messageText (@unsupportedNoSelfFunctionConversion ResolvedNodes sampleNode (Some "x"))
     = "Unable to convert function with a 'this' parameter to function 'x' with no 'this'. To fix, wrap in an arrow function, or declare with 'this: void'."
  /\ messageText (@unsupportedSelfFunctionConversion ResolvedNodes sampleNode (Some "x"))
     = "Unable to convert function with no 'this' parameter to function 'x' with 'this'. To fix, wrap in an arrow function, or declare with 'this: any'."
  /\ messageText (@unsupportedOverloadAssignment ResolvedNodes sampleNode (Some "x"))
     = "Unsupported assignment of function with different overloaded types for 'this' to 'x'. Overloads should all have the same type for 'this'.".
Proof.
  assert (Hname : "x" <> "") by discriminate.
  split; [exact Hname |].
  destruct (@optional_name_reference_shape ResolvedNodes sampleNode "x" Hname)
    as ((_ & Hnoself) & (_ & Hself) & (_ & Hoverload)).
  split; [exact Hnoself | split; [exact Hself | exact Hoverload]].
Defined.

(** [getLuaTargetName_alias_or_version] at the target "5.3" of
    [StringTargets]. *)
Lemma getLuaTargetName_at_5_3 :
  "5.3" <> "JIT"
  /\ @getLuaTargetName StringTargets "5.3" = "Lua 5.3".
Proof.
  assert (Hother : "5.3" <> "JIT") by discriminate.
  split; [exact Hother |].
  exact (proj1 (proj2 (@getLuaTargetName_alias_or_version ResolvedNodes StringTargets))
           "5.3" Hother).
Defined.

(** [static_message_is_constant] at [forbiddenForIn], called with one extra
    argument. *)
Lemma static_message_is_constant_at_forbiddenForIn :
  @factory ResolvedNodes StringTargets ForbiddenForIn
  = createDiagnosticFactory Error
      (Static "Iterating over arrays with 'for ... in' is not allowed.")
  /\ messageText (@factory ResolvedNodes StringTargets ForbiddenForIn sampleNode ["extra"])
     = "Iterating over arrays with 'for ... in' is not allowed.".
Proof.
  split; [reflexivity |].
  exact (proj1 (@static_message_is_constant ResolvedNodes StringTargets)
           ForbiddenForIn Error _ eq_refl sampleNode ["extra"]).
Defined.

(** [unsupportedForTarget_distinguishes_targets] on the targets of
    [StringTargets], which print as themselves. *)
Lemma unsupportedForTarget_distinguishes_targets_at_5_1 :
  (forall a b : @LuaTarget StringTargets,
     @LuaTarget_toString StringTargets a = @LuaTarget_toString StringTargets b ->
     a = b)
  /\ messageText
       (@unsupportedForTarget ResolvedNodes StringTargets sampleNode
          ("Bitwise operations", "5.1"))
     = messageText
         (@unsupportedForTarget ResolvedNodes StringTargets sampleNode
            ("Bitwise operations", "5" ++ ".1"))
  /\ "5.1" = "5" ++ ".1".
Proof.
  assert (Hinj : forall a b : @LuaTarget StringTargets,
             @LuaTarget_toString StringTargets a
             = @LuaTarget_toString StringTargets b -> a = b)
    by (intros a b Hab; exact Hab).
  split; [exact Hinj | split; [reflexivity |]].
  exact (@unsupportedForTarget_distinguishes_targets ResolvedNodes StringTargets
           sampleNode "Bitwise operations" "5.1" ("5" ++ ".1") Hinj eq_refl).
Defined.

(** [unsupportedProperty_injective_without_dots] at "console" and "log". *)
Lemma unsupportedProperty_injective_at_console_log :
  occurs "." "console" = false
  /\ occurs "." ("con" ++ "sole") = false
  /\ messageText (@unsupportedProperty ResolvedNodes sampleNode ("console", "log"))
     = messageText
         (@unsupportedProperty ResolvedNodes sampleNode ("con" ++ "sole", "l" ++ "og"))
  /\ "console" = "con" ++ "sole"
  /\ "log" = "l" ++ "og".
Proof.
  split; [reflexivity | split; [reflexivity | split; [reflexivity |]]].
  exact (@unsupportedProperty_injective_without_dots ResolvedNodes sampleNode
           "console" "log" ("con" ++ "sole") ("l" ++ "og")
           eq_refl eq_refl eq_refl).
Defined.

(** [unsupportedNodeKind_injective] on the syntax kinds of [ResolvedNodes],
    which are their names. *)
Lemma unsupportedNodeKind_injective_at_WithStatement :
  (forall a b : @SyntaxKind ResolvedNodes,
     @SyntaxKind_name ResolvedNodes a = @SyntaxKind_name ResolvedNodes b -> a = b)
  /\ messageText (@unsupportedNodeKind ResolvedNodes sampleNode "WithStatement")
     = messageText
         (@unsupportedNodeKind ResolvedNodes sampleNode ("With" ++ "Statement"))
  /\ "WithStatement" = "With" ++ "Statement".
Proof.
  assert (Hinj : forall a b : @SyntaxKind ResolvedNodes,
             @SyntaxKind_name ResolvedNodes a = @SyntaxKind_name ResolvedNodes b ->
             a = b)
    by (intros a b Hab; exact Hab).
  split; [exact Hinj | split; [reflexivity |]].
  exact (@unsupportedNodeKind_injective ResolvedNodes sampleNode
           "WithStatement" ("With" ++ "Statement") Hinj eq_refl).
Defined.


(** [annotationInvalidArgumentCount_determines_counts] at the counts 2 and 1,
    given in the two orders. *)
Lemma annotationInvalidArgumentCount_tells_2_1_from_1_2 :
  isSafeInteger 2%Z = true
  /\ isSafeInteger 1%Z = true
  /\ messageText (@annotationInvalidArgumentCount ResolvedNodes sampleNode ("foo", 2%Z, 1%Z))
     <> messageText (@annotationInvalidArgumentCount ResolvedNodes sampleNode ("foo", 1%Z, 2%Z)).
Proof.
  split; [reflexivity | split; [reflexivity |]].
  intros Htext.
  apply (proj1 (@annotationInvalidArgumentCount_determines_counts
                  ResolvedNodes sampleNode "foo" 2%Z 1%Z 1%Z 2%Z
                  eq_refl eq_refl eq_refl eq_refl)) in Htext.
  destruct Htext as [Hgot _]. discriminate Hgot.
Defined.

(** C8 as stated fails on a synthesized node: [getStart] throws on it, and
    so does the invocation of [forbiddenForIn], which yields no record. *)
Lemma synthesized_node_makes_the_factory_throw :
  ~ exists (d : @Diagnostic (Resolved SampleHost)) (s' : nat),
      @Running.factory SampleHost StringTargets ForbiddenForIn Synthesized [] 0
      = (Normal d, s').
Proof.
  intros (d & s' & Hreturns). cbv in Hreturns. discriminate Hreturns.
Qed.

Example forbiddenForIn_on_synthesized_node :
  @Running.factory SampleHost StringTargets ForbiddenForIn Synthesized [] 0
  = (Throw "Node must have a real position for this operation", 0).
Proof. reflexivity. Qed.

(** [invocation_yields_one_record_unless_a_call_throws] on a parsed node of
    [SampleHost]. *)
Lemma invocation_yields_one_record_on_parsed_node :
  @callGetSourceFile SampleHost (Parsed "main.ts" 12 5) 0 = (Normal (Some "main.ts"), 0)
  /\ @callGetStart SampleHost (Parsed "main.ts" 12 5) 0 = (Normal 12%Z, 0)
  /\ @callGetWidth SampleHost (Parsed "main.ts" 12 5) 0 = (Normal 5%Z, 0)
  /\ @Running.factory SampleHost StringTargets ForbiddenForIn
       (Parsed "main.ts" 12 5) ["extra"] 0
     = (Normal
          (@Build_Diagnostic (Resolved SampleHost) (Some "main.ts") 12 5
             "Iterating over arrays with 'for ... in' is not allowed." Error),
        0).
Proof.
  repeat (split; [reflexivity |]).
  exact (proj1 (@invocation_yields_one_record_unless_a_call_throws
                  SampleHost StringTargets ForbiddenForIn
                  (Parsed "main.ts" 12 5) ["extra"] 0)
           (Some "main.ts") 12%Z 5%Z 0 0 0 eq_refl eq_refl eq_refl).
Defined.


(** Without the purity of the calls the two records can differ: on
    [DriftingHost] the same node and arguments give two positions. *)
Example drifting_getStart_gives_two_records :
  @Running.factory DriftingHost StringTargets ForbiddenForIn ("main.ts", 12%Z, 5%Z) [] 0%Z
  = (Normal
       (@Build_Diagnostic (Resolved DriftingHost) "main.ts" 12 5
          "Iterating over arrays with 'for ... in' is not allowed." Error),
     1%Z)
  /\ @Running.factory DriftingHost StringTargets ForbiddenForIn ("main.ts", 12%Z, 5%Z) [] 1%Z
     = (Normal
          (@Build_Diagnostic (Resolved DriftingHost) "main.ts" 13 5
             "Iterating over arrays with 'for ... in' is not allowed." Error),
        2%Z).
Proof. split; reflexivity. Qed.
